(** * The calendar view's synchronisation handlers (src/view.ts)

    A shallow embedding of [CalendarView]: the handlers that keep the
    calendar widget's event store in step with the vault
    ([onCacheUpdate], the [delete] and [rename] listeners), the
    write-back of a drag or resize ([modifyEvent]), and the view's
    [onOpen] / [onClose]. *)

From stdpp Require Import gmap strings list.

Open Scope string_scope.
Open Scope list_scope.
Open Scope nat_scope.

(** ** Values and objects of the host and of the widget *)

(** The JavaScript values that occur as properties of an event object. *)
Inductive JsValue :=
  | JStr (s : string)
  | JBool (b : bool)
  | JNull.

#[global] Instance JsValue_eq_dec : EqDecision JsValue.
Proof. solve_decision. Defined.

(** An [EventInput] is a plain JavaScript object: a finite map from
    property names to values. *)
Abbreviation EventInput := (gmap string JsValue).

(** [{ ...a, ...b }] for objects: the properties of [b] win. *)
Definition spread (a b : EventInput) : EventInput := b ∪ a.

(** obsidian's [TFile], [TFolder] and their common supertype; the
    constructors of [TAbstractFile] stand for [instanceof]. *)
Record TFile := { path : string }.
Record TFolder := { folderPath : string }.

Inductive TAbstractFile :=
  | IsFile (f : TFile)
  | IsFolder (d : TFolder).

(** [s.startsWith(searchString)]. *)
Definition startsWith (s searchString : string) : bool :=
  String.prefix searchString s.

(** ** Settings (types.ts): the tagged union of calendar sources *)

Inductive CalendarSource :=
  | LocalCalendarSource (directory : string) (color : option string)
  | GoogleCalendarSource (url : string) (color : option string)
  | ICalendarSource (url : string) (color : option string).

Definition sourceColor (c : CalendarSource) : option string :=
  match c with
  | LocalCalendarSource _ col => col
  | GoogleCalendarSource _ col => col
  | ICalendarSource _ col => col
  end.

Record Settings := {
  calendarSources : list CalendarSource;
  recursiveLocal : bool
}.

(** [color || fallback] on a [string | null]: [null] and the empty
    string are falsy. *)
Definition orElse (color : option string) (fallback : string) : string :=
  match color with
  | Some s => if decide (s = "") then fallback else s
  | None => fallback
  end.

(** ** The widget's event store

    The calendar widget (@fullcalendar/core, an external library)
    keeps its events in insertion order, and several events may carry
    the same id. [Calendar.getEventById] hands out the first event with
    the id, [EventApi.remove] takes the event of the handle out of the
    store, and [Calendar.addEvent] parses the object it is given: an
    object the widget cannot parse (one without a parseable start) is
    refused, [null] is returned and nothing is stored; any other is
    appended as a new event without looking at the ids already there.
    Which objects the widget parses is the widget's business and is
    taken as given, as [accepts]. *)

Abbreviation Calendar := (list EventInput).

(** The public id of an event: its [id] property, the empty string
    when it has none. *)
Definition publicId (e : EventInput) : string :=
  match e !! "id" with
  | Some (JStr s) => s
  | _ => ""
  end.

(** An [EventApi] handle: the position of the event in the store and
    the event. *)
Definition EventApi : Type := nat * EventInput.

Definition getEventById (cal : Calendar) (id : string) : option EventApi :=
  list_find (λ e, publicId e = id) cal.

Definition EventApi_remove (ev : EventApi) (cal : Calendar) : Calendar :=
  delete (fst ev) cal.

Definition addEvent (accepts : EventInput → bool) (e : EventInput)
    (cal : Calendar) : Calendar :=
  if accepts e then cal ++ [e] else cal.

(** The events of the store that carry the id [p], and their number. *)
Definition eventsWithId (p : string) (cal : Calendar) : list EventInput :=
  filter (λ e, publicId e = p) cal.

Definition countId (p : string) (cal : Calendar) : nat :=
  length (eventsWithId p cal).

(** ** The view *)

Record CalendarView := {
  calendar : option Calendar;          (* [this.calendar], [null] as [None] *)
  settings : Settings;                 (* [this.plugin.settings] *)
  textContent : string                 (* the text of the view's [calendarEl] *)
}.

(** [this.calendar?.m(...)] for a method [m] that updates the store:
    nothing happens when [this.calendar] is [null]. *)
Definition withCalendar (m : Calendar → Calendar) (this : CalendarView) : CalendarView :=
  {| calendar := m <$> calendar this;
     settings := settings this;
     textContent := textContent this |}.

(** [this.calendar?.getEventById(id)]. *)
Definition lookupEvent (this : CalendarView) (id : string) : option EventApi :=
  calendar this ≫= λ cal, getEventById cal id.

(** [if (ev) { ev.remove(); }]. *)
Definition removeIfFound (ev : option EventApi) (this : CalendarView) : CalendarView :=
  match ev with
  | Some e => withCalendar (EventApi_remove e) this
  | None => this
  end.

(** The number of events with id [p] the view shows; none without a widget. *)
Definition shown (p : string) (this : CalendarView) : nat :=
  from_option (countId p) 0 (calendar this).

(** What the handlers read from the host: the metadata cache and the
    computed style of [document.body]. *)
Record App (MetadataCache : Type) := {
  metadataCache : MetadataCache;
  getPropertyValue : string → string
}.
Arguments metadataCache {_} _.
Arguments getPropertyValue {_} _ _.

(** The local source a path is looked up under: the predicate passed to
    [calendarSources.find]. *)
Definition isLocalFor (filePath : string) (c : CalendarSource) : bool :=
  match c with
  | LocalCalendarSource directory _ => startsWith filePath directory
  | _ => false
  end.

Section SyncEngine.

(** [getEventInputFromFile] (crud.ts) is taken as given: it decodes the
    front matter of a file into an event object, or gives [null]. So is
    the widget's parse of an event object, [accepts]. *)
Context {MetadataCache : Type}.
Variable getEventInputFromFile : MetadataCache → TFile → option EventInput.
Variable accepts : EventInput → bool.

Definition onCacheUpdate (app : App MetadataCache) (file : TFile)
    (this : CalendarView) : CalendarView :=
  let calendar := List.find (isLocalFor (path file)) (calendarSources (settings this)) in
  let calendarEvent := lookupEvent this (path file) in
  let newEventData := getEventInputFromFile (metadataCache app) file in
  match calendar, newEventData with
  | Some calendar, Some newEventData =>
      let this := removeIfFound calendarEvent this in
      withCalendar
        (addEvent accepts
           (spread
              {[ "color" := JStr (orElse (sourceColor calendar)
                                    (getPropertyValue app "--interactive-accent"));
                 "textColor" := JStr (getPropertyValue app "--text-on-accent") ]}
              newEventData))
        this
  | _, _ => this
  end.

(** The listener on the vault's [delete]. *)
Definition onDelete (file : TAbstractFile) (this : CalendarView) : CalendarView :=
  match file with
  | IsFile f =>
      let id := path f in
      let event := lookupEvent this id in
      removeIfFound event this
  | IsFolder _ => this
  end.

(** The listener on the vault's [rename]. *)
Definition onRename (app : App MetadataCache) (file : TAbstractFile)
    (oldPath : string) (this : CalendarView) : CalendarView :=
  let oldEvent := lookupEvent this oldPath in
  let this := removeIfFound oldEvent this in
  match file with
  | IsFile f => onCacheUpdate app f this
  | IsFolder _ => this
  end.

Definition onClose (this : CalendarView) : CalendarView :=
  match calendar this with
  | Some _ =>
      {| calendar := None; settings := settings this; textContent := textContent this |}
  | None => this
  end.

(** The notifications the view listens to once it is open, and the
    handler each one reaches. *)
Inductive Notification :=
  | MetadataChanged (file : TFile)
  | VaultDelete (file : TAbstractFile)
  | VaultRename (file : TAbstractFile) (oldPath : string).

Definition notify (app : App MetadataCache) (n : Notification)
    (this : CalendarView) : CalendarView :=
  match n with
  | MetadataChanged file => onCacheUpdate app file this
  | VaultDelete file => onDelete file this
  | VaultRename file oldPath => onRename app file oldPath this
  end.

(** Notifications are handled one at a time, in arrival order; the host
    state each handler reads is the one at its arrival. *)
Definition run (trace : list (App MetadataCache * Notification))
    (this : CalendarView) : CalendarView :=
  foldl (λ v step, notify (fst step) (snd step) v) this trace.

(** What the view relies on from the decoder: the event decoded from a
    file carries the file's path as its id (an event's identity is the
    path of its backing document). *)
Definition decodesOwnPath : Prop :=
  ∀ cache file e,
    getEventInputFromFile cache file = Some e → publicId e = path file.

End SyncEngine.

(** ** The notions the properties are stated with *)

(** A path lies within a directory when it continues the directory's
    path past a separator. *)
Definition withinDirectory (directory filePath : string) : bool :=
  startsWith filePath (directory +:+ "/").


(** ** Opening the view *)

(** What the widget is given as an event source: the events built from
    a local directory, or the description of a remote calendar. *)
Record GoogleSource := {
  editable : bool;
  googleCalendarId : string;
  gTextColor : string;
  gColor : string
}.

Inductive EventSourceInput (LocalEvents : Type) :=
  | FromLocal (events : LocalEvents)
  | FromGoogle (g : GoogleSource).
Arguments FromLocal {_} _.
Arguments FromGoogle {_} _.

Definition isLocal (s : CalendarSource) : bool :=
  match s with LocalCalendarSource _ _ => true | _ => false end.

Definition isGcal (s : CalendarSource) : bool :=
  match s with GoogleCalendarSource _ _ => true | _ => false end.

Definition sourceUrl (s : CalendarSource) : string :=
  match s with
  | LocalCalendarSource _ _ => ""
  | GoogleCalendarSource url _ => url
  | ICalendarSource url _ => url
  end.

(** JavaScript's [ToBoolean] on an array: an array is an object, and
    every object is truthy, the empty array included. *)
Definition toBoolean_array {A} (a : list A) : bool := true.

Definition directoryError : string :=
  "Error: the events directory was not a directory. Please change your events directory in settings.".

Section Open.

(** [getEventSourceFromLocalSource] (crud.ts) and [renderCalendar]
    (calendar.ts) are taken as given; the first gives [null] when the
    source's directory is not a directory. *)
Context {Vault MetadataCache LocalEvents : Type}.
Variable getEventSourceFromLocalSource :
  Vault → MetadataCache → CalendarSource → bool → option LocalEvents.
Variable renderCalendar : list (EventSourceInput LocalEvents) → Calendar.

Definition onOpen (loaded : Settings) (vault : Vault) (app : App MetadataCache)
    (this : CalendarView) : CalendarView :=
  (* await this.plugin.loadSettings() *)
  let settings := loaded in
  let built :=
    map (λ source,
           getEventSourceFromLocalSource vault (metadataCache app) source
             (recursiveLocal settings))
        (List.filter isLocal (calendarSources settings)) in
  let sources :=
    map FromLocal (omap id built) ++
    map (λ gcalSource,
           FromGoogle
             {| editable := false;
                googleCalendarId := sourceUrl gcalSource;
                gTextColor := getPropertyValue app "--text-on-accent";
                gColor := orElse (sourceColor gcalSource)
                            (getPropertyValue app "--interactive-accent") |})
        (List.filter isGcal (calendarSources settings)) in
  (* container.empty(); calendarEl = container.createEl("div") *)
  if negb (toBoolean_array sources) then
    {| calendar := calendar this; settings := settings; textContent := directoryError |}
  else
    {| calendar := Some (renderCalendar sources); settings := settings; textContent := "" |}.

End Open.

(** ** Writing a moved or resized event back *)

Definition duplicateNotice : string :=
  "Multiple events with the same name on the same date are not yet supported. Please rename your event before moving it.".

(** The host state a write-back can touch: the vault and the notices
    shown to the user so far. *)
Record Host (Vault : Type) := {
  vault : Vault;
  notices : list string
}.
Arguments vault {_} _.
Arguments notices {_} _.

(** What [modifyEvent] leaves behind: its return value, the host and
    the view. *)
Record Outcome (Vault : Type) := {
  returned : bool;
  hostAfter : Host Vault;
  viewAfter : CalendarView
}.
Arguments returned {_} _.
Arguments hostAfter {_} _.
Arguments viewAfter {_} _.

Section ModifyEvent.

(** The resolver and the writer of crud.ts and the encoder of
    frontmatter.ts are taken as given. [upsertLocalEvent] reports
    whether it wrote and gives the vault it leaves. *)
Context {Vault Frontmatter : Type}.
Variable getFileForEvent : Vault → EventApi → option TFile.
Variable upsertLocalEvent : Vault → string → Frontmatter → string → bool * Vault.
Variable getPathPrefix : string → string.
Variable eventApiToFrontmatter : EventApi → Frontmatter.

Definition modifyEvent (event : EventApi) (host : Host Vault)
    (this : CalendarView) : Outcome Vault :=
  let id := publicId (snd event) in
  match getFileForEvent (vault host) event with
  | None => {| returned := false; hostAfter := host; viewAfter := this |}
  | Some file =>
      let written :=
        upsertLocalEvent (vault host) (getPathPrefix id) (eventApiToFrontmatter event) id in
      let success := fst written in
      let shownNotices :=
        if negb success then notices host ++ [duplicateNotice] else notices host in
      {| returned := success;
         hostAfter := {| vault := snd written; notices := shownNotices |};
         viewAfter := this |}
  end.

End ModifyEvent.

(** ** A small vault to run the handlers on

    The metadata cache holds the front matter of the documents that
    describe an event, by path; the decoder adds the path as id. *)

Definition sampleDecoder (cache : gmap string EventInput) (file : TFile) : option EventInput :=
  (λ frontmatter, <["id" := JStr (path file)]> frontmatter) <$> cache !! path file.

(** A widget that refuses an event whose date is missing or empty. *)
Definition sampleAccepts (e : EventInput) : bool :=
  match e !! "date" with
  | Some (JStr s) => bool_decide (s ≠ "")
  | _ => false
  end.


Definition standup : EventInput :=
  {[ "title" := JStr "Standup"; "date" := JStr "2024-01-05"; "allDay" := JBool true ]}.

Definition sampleApp (cache : gmap string EventInput) : App (gmap string EventInput) :=
  {| metadataCache := cache;
     getPropertyValue := λ name,
       if decide (name = "--interactive-accent") then "#7f6df2"
       else if decide (name = "--text-on-accent") then "#ffffff" else "" |}.

Definition eventsSettings : Settings :=
  {| calendarSources := [LocalCalendarSource "events" None];
     recursiveLocal := false |}.

Definition openView (cal : Calendar) : CalendarView :=
  {| calendar := Some cal; settings := eventsSettings; textContent := "" |}.

(** An edit, a rename and a delete over the sample vault. *)
Definition sampleTrace : list (App (gmap string EventInput) * Notification) :=
  [ (sampleApp {[ "events/a.md" := standup ]}, MetadataChanged {| path := "events/a.md" |});
    (sampleApp {[ "events/a.md" := standup ]}, MetadataChanged {| path := "events/a.md" |});
    (sampleApp {[ "events/b.md" := standup ]},
     VaultRename (IsFile {| path := "events/b.md" |}) "events/a.md");
    (sampleApp ∅, VaultDelete (IsFile {| path := "events/b.md" |})) ].

(** The event the store holds for a document of the sample vault. *)
Definition eventOf (p : string) (frontmatter : EventInput) : EventInput :=
  <["id" := JStr p]> frontmatter.

Definition retitled : EventInput :=
  {[ "title" := JStr "Planning"; "date" := JStr "2024-01-05"; "allDay" := JBool true ]}.

(** The source builder over a list of the folders that exist: [null]
    for a directory that is not among them, else the events of the
    cached documents within it. *)
Definition sampleSource (folders : list string) (cache : gmap string EventInput)
    (source : CalendarSource) (recursive : bool) : option (list EventInput) :=
  match source with
  | LocalCalendarSource directory _ =>
      if decide (directory ∈ folders) then
        Some ((λ kv, eventOf (fst kv) (snd kv)) <$>
              filter (λ kv, withinDirectory directory (fst kv) = true) (map_to_list cache))
      else None
  | _ => None
  end.

(** A widget that starts with the events of its local sources. *)
Definition sampleRender (sources : list (EventSourceInput (list EventInput))) : Calendar :=
  concat (map (λ s, match s with FromLocal events => events | FromGoogle _ => [] end) sources).

Definition closedView : CalendarView :=
  {| calendar := None;
     settings := {| calendarSources := []; recursiveLocal := false |};
     textContent := "" |}.

Definition missingSettings : Settings :=
  {| calendarSources := [LocalCalendarSource "missing" None];
     recursiveLocal := false |}.

(** A resolver and a writer over a vault of documents by path: the
    resolver finds the document at the event's id; the writer refuses
    when another document carries the same title and date. *)
Definition sampleGetFile (vault : gmap string EventInput) (event : EventApi) : option TFile :=
  match vault !! publicId (snd event) with
  | Some _ => Some {| path := publicId (snd event) |}
  | None => None
  end.

Definition sameNameAndDate (id : string) (frontmatter : EventInput)
    (kv : string * EventInput) : Prop :=
  fst kv ≠ id ∧ snd kv !! "title" = frontmatter !! "title"
  ∧ snd kv !! "date" = frontmatter !! "date".

#[global] Instance sameNameAndDate_dec id frontmatter kv :
  Decision (sameNameAndDate id frontmatter kv).
Proof. unfold sameNameAndDate. apply _. Defined.

Definition sampleUpsert (vault : gmap string EventInput) (directory : string)
    (frontmatter : EventInput) (id : string) : bool * gmap string EventInput :=
  match filter (sameNameAndDate id frontmatter) (map_to_list vault) with
  | [] => (true, <[id := frontmatter]> vault)
  | _ :: _ => (false, vault)
  end.

Definition sampleEncode (event : EventApi) : EventInput := delete "id" (snd event).

Definition sampleModify :=
  modifyEvent sampleGetFile sampleUpsert (λ _, "events") sampleEncode.

Definition hostOf (vault : gmap string EventInput) : Host (gmap string EventInput) :=
  {| vault := vault; notices := [] |}.

(** ** Further notions: what a notification names, what [onOpen] builds *)

(** The paths a notification names: the ids of the events its handler
    looks up or adds. *)
Definition touched (n : Notification) : list string :=
  match n with
  | MetadataChanged file => [path file]
  | VaultDelete (IsFile f) => [path f]
  | VaultDelete (IsFolder _) => []
  | VaultRename (IsFile f) oldPath => [oldPath; path f]
  | VaultRename (IsFolder _) oldPath => [oldPath]
  end.

(** The events with id [p] the view holds, in store order. *)
Definition eventsShown (p : string) (this : CalendarView) : option (list EventInput) :=
  eventsWithId p <$> calendar this.

(** A view over the same widget and text with other calendar sources. *)
Definition withSources (sources : list CalendarSource) (this : CalendarView) : CalendarView :=
  {| calendar := calendar this;
     settings := {| calendarSources := sources;
                    recursiveLocal := recursiveLocal (settings this) |};
     textContent := textContent this |}.

Definition settingsOf (sources : list CalendarSource) (recursive : bool) : Settings :=
  {| calendarSources := sources; recursiveLocal := recursive |}.

(** The object [onCacheUpdate] hands to [addEvent] for the source it
    found and the decoded event. *)
Definition newEvent {MetadataCache : Type} (app : App MetadataCache)
    (source : CalendarSource) (data : EventInput) : EventInput :=
  spread
    {[ "color" := JStr (orElse (sourceColor source)
                          (getPropertyValue app "--interactive-accent"));
       "textColor" := JStr (getPropertyValue app "--text-on-accent") ]}
    data.

(** The store after [if (ev) { ev.remove(); }] for the event
    [getEventById] finds at [id]. *)
Definition storeWithout (id : string) (cal : Calendar) : Calendar :=
  match getEventById cal id with
  | Some ev => EventApi_remove ev cal
  | None => cal
  end.

(** Sample settings with a remote source and two local sources, one
    directory below the other; and a sequence of edits of one document
    that ends with its front matter gone. *)
Definition nestedSources : list CalendarSource :=
  [ GoogleCalendarSource "team@example.org" None;
    LocalCalendarSource "events" (Some "red");
    LocalCalendarSource "events/work" (Some "blue") ].

Definition editsTrace : list (App (gmap string EventInput) * Notification) :=
  [ (sampleApp {[ "events/a.md" := standup ]}, MetadataChanged {| path := "events/a.md" |});
    (sampleApp {[ "events/a.md" := retitled ]}, MetadataChanged {| path := "events/a.md" |});
    (sampleApp ∅, MetadataChanged {| path := "events/a.md" |}) ].

(** * Properties *)

(** ** The event store: counting and removal *)

Lemma countId_nil p : countId p [] = 0.
Proof. reflexivity. Qed.

Lemma countId_cons p e (cal : Calendar) :
  countId p (e :: cal) =
  (if decide (publicId e = p) then 1 else 0) + countId p cal.
Proof.
  unfold countId, eventsWithId. rewrite filter_cons.
  destruct (decide (publicId e = p)); reflexivity.
Qed.

Lemma countId_addEvent accepts p e (cal : Calendar) :
  countId p (addEvent accepts e cal) =
  countId p cal
  + (if accepts e then if decide (publicId e = p) then 1 else 0 else 0).
Proof.
  unfold countId, eventsWithId, addEvent.
  destruct (accepts e); [|lia].
  rewrite filter_app, length_app, filter_cons, filter_nil.
  destruct (decide (publicId e = p)); reflexivity.
Qed.

(** Taking the event at position [i] out of the store lowers the count
    of its own id by one and leaves every other count alone. *)
Lemma countId_delete p (cal : Calendar) i e :
  cal !! i = Some e →
  countId p cal =
  (if decide (publicId e = p) then 1 else 0) + countId p (delete i cal).
Proof.
  revert i. induction cal as [|x cal IH]; intros i Hi; [done|].
  destruct i as [|i]; simpl in Hi.
  - injection Hi as ->. simpl. apply countId_cons.
  - simpl. rewrite !countId_cons, (IH i Hi). lia.
Qed.

Lemma getEventById_Some (cal : Calendar) id ev :
  getEventById cal id = Some ev →
  cal !! fst ev = Some (snd ev) ∧ publicId (snd ev) = id.
Proof.
  destruct ev as [i e]. unfold getEventById. intros H.
  apply list_find_Some in H as (Hi & Hp & _). done.
Qed.

Lemma getEventById_None (cal : Calendar) id :
  getEventById cal id = None ↔ countId id cal = 0.
Proof.
  unfold getEventById. etrans; [apply list_find_None|].
  unfold countId, eventsWithId. rewrite length_zero_iff_nil.
  induction cal as [|x cal IH]; [done|].
  rewrite Forall_cons, filter_cons, IH.
  destruct (decide (publicId x = id)); intuition discriminate.
Qed.

Lemma countId_remove_same (cal : Calendar) id ev :
  getEventById cal id = Some ev →
  countId id cal = S (countId id (EventApi_remove ev cal)).
Proof.
  intros H. apply getEventById_Some in H as [Hi Hp].
  rewrite (countId_delete id cal _ _ Hi). rewrite decide_True by done. done.
Qed.

Lemma countId_remove_other (cal : Calendar) id ev p :
  getEventById cal id = Some ev → p ≠ id →
  countId p (EventApi_remove ev cal) = countId p cal.
Proof.
  intros H Hne. apply getEventById_Some in H as [Hi Hp].
  rewrite (countId_delete p cal _ _ Hi). rewrite decide_False by congruence. done.
Qed.

(** The overlay of the colours does not touch the id. *)
Lemma publicId_spread_colours color textColor (e : EventInput) :
  publicId (spread {[ "color" := color; "textColor" := textColor ]} e) = publicId e.
Proof.
  unfold publicId, spread. rewrite lookup_union.
  destruct (e !! "id") as [v|] eqn:He; simpl.
  - by destruct (_ !! "id").
  - rewrite lookup_insert_ne by done. rewrite lookup_singleton_ne by done. done.
Qed.

(** ** What the handlers' steps do to the number of events per id *)

Lemma shown_removeIfFound p id this :
  shown p (removeIfFound (lookupEvent this id) this) =
  if decide (p = id) then pred (shown p this) else shown p this.
Proof.
  unfold shown, lookupEvent, removeIfFound.
  destruct (calendar this) as [cal|] eqn:Hc; simpl.
  - destruct (getEventById cal id) as [ev|] eqn:Hev; simpl.
    + rewrite Hc. simpl. destruct (decide (p = id)) as [->|Hne].
      * by rewrite (countId_remove_same _ _ _ Hev).
      * by apply countId_remove_other with id.
    + rewrite Hc. simpl. destruct (decide (p = id)) as [->|Hne]; [|done].
      apply getEventById_None in Hev. by rewrite Hev.
  - rewrite Hc. simpl. by destruct (decide (p = id)).
Qed.

Lemma shown_addEvent accepts p e this :
  shown p (withCalendar (addEvent accepts e) this) =
  match calendar this with
  | Some _ =>
      shown p this
      + (if accepts e then if decide (publicId e = p) then 1 else 0 else 0)
  | None => 0
  end.
Proof.
  unfold shown, withCalendar. simpl.
  destruct (calendar this) as [cal|]; simpl; [apply countId_addEvent|done].
Qed.

Lemma calendar_removeIfFound_None ev this :
  calendar this = None → removeIfFound ev this = this.
Proof.
  intros H. destruct this as [c s t]. simpl in H. subst c.
  by destruct ev.
Qed.

Lemma calendar_removeIfFound_is_Some ev this :
  is_Some (calendar (removeIfFound ev this)) ↔ is_Some (calendar this).
Proof.
  destruct ev as [e|]; simpl; [|done]. by rewrite fmap_is_Some.
Qed.

Section SyncEngineFacts.

Context {MetadataCache : Type}.
Variable getEventInputFromFile : MetadataCache → TFile → option EventInput.
Variable accepts : EventInput → bool.
Hypothesis decoder_ok : decodesOwnPath getEventInputFromFile.

Abbreviation onCacheUpdate := (onCacheUpdate getEventInputFromFile accepts).
Abbreviation onRename := (onRename getEventInputFromFile accepts).
Abbreviation notify := (notify getEventInputFromFile accepts).
Abbreviation run := (run getEventInputFromFile accepts).

(** The count of every id after [onCacheUpdate]: an update that goes
    through takes one event at the file's path out of the store and
    puts the new one in when the widget accepts it; it touches no other
    id. *)
Lemma shown_onCacheUpdate p (app : App MetadataCache) file this :
  shown p (onCacheUpdate app file this) =
  match List.find (isLocalFor (path file)) (calendarSources (settings this)),
        getEventInputFromFile (metadataCache app) file,
        calendar this with
  | Some source, Some data, Some _ =>
      if decide (p = path file) then
        if accepts (newEvent app source data) then S (pred (shown p this))
        else pred (shown p this)
      else shown p this
  | _, _, _ => shown p this
  end.
Proof.
  unfold onCacheUpdate.
  destruct (List.find _ _) as [c|]; [|done].
  destruct (getEventInputFromFile _ _) as [e|] eqn:He; [|done].
  rewrite shown_addEvent, publicId_spread_colours, (decoder_ok _ _ _ He).
  fold (newEvent app c e).
  destruct (calendar this) as [cal|] eqn:Hc.
  - destruct (calendar (removeIfFound _ _)) eqn:Hr.
    + rewrite shown_removeIfFound.
      destruct (decide (p = path file)) as [->|Hne].
      * rewrite decide_True by done. destruct (accepts _); lia.
      * rewrite decide_False by done. destruct (accepts _); lia.
    + assert (is_Some (calendar this)) as Hs by (rewrite Hc; eauto).
      apply (calendar_removeIfFound_is_Some (lookupEvent this (path file))) in Hs.
      rewrite Hr in Hs. by destruct Hs.
  - rewrite calendar_removeIfFound_None by done. rewrite Hc.
    unfold shown. by rewrite Hc.
Qed.

Lemma onCacheUpdate_at_most_one p (app : App MetadataCache) file this :
  shown p this ≤ 1 → shown p (onCacheUpdate app file this) ≤ 1.
Proof.
  intros H. rewrite shown_onCacheUpdate.
  repeat case_match; lia.
Qed.

Lemma onDelete_at_most_one p file this :
  shown p this ≤ 1 → shown p (onDelete file this) ≤ 1.
Proof.
  intros H. destruct file as [f|d]; simpl; [|done].
  rewrite shown_removeIfFound. case_decide; lia.
Qed.

Lemma onRename_at_most_one p (app : App MetadataCache) file oldPath this :
  shown p this ≤ 1 → shown p (onRename app file oldPath this) ≤ 1.
Proof.
  intros H. unfold onRename.
  assert (shown p (removeIfFound (lookupEvent this oldPath) this) ≤ 1) as H'.
  { rewrite shown_removeIfFound. case_decide; lia. }
  destruct file as [f|d]; [by apply onCacheUpdate_at_most_one|done].
Qed.

Lemma notify_at_most_one p (app : App MetadataCache) n this :
  shown p this ≤ 1 → shown p (notify app n this) ≤ 1.
Proof.
  destruct n; simpl;
    auto using onCacheUpdate_at_most_one, onDelete_at_most_one, onRename_at_most_one.
Qed.

(** C1. Single-identity invariant: for every identity [p], a view that
    shows at most one event with id [p] still shows at most one after
    any finite sequence of metadata-changed, delete and rename
    notifications, whatever the host state at each of them; the decoder
    is only required to give an event the path of its file as id. *)
Theorem single_identity_invariant p trace this :
  shown p this ≤ 1 → shown p (run trace this) ≤ 1.
Proof.
  revert this. induction trace as [|[app n] trace IH]; intros this H; [done|].
  simpl. apply IH. by apply notify_at_most_one.
Qed.

End SyncEngineFacts.

(** ** Directories and the source lookup *)

Lemma prefix_app_l (d x s : string) :
  String.prefix (d +:+ x) s = true → String.prefix d s = true.
Proof.
  revert s. induction d as [|a d IH]; intros s; [by destruct s|].
  destruct s as [|b s]; simpl; [done|].
  destruct (Ascii.ascii_dec a b); [apply IH|done].
Qed.

Lemma withinDirectory_startsWith directory filePath :
  withinDirectory directory filePath = true → startsWith filePath directory = true.
Proof. apply prefix_app_l. Qed.

(** A path within the directory of a configured local source is found
    a source by the lookup: a local one whose directory starts the path. *)
Lemma find_local_source filePath directory color (sources : list CalendarSource) :
  LocalCalendarSource directory color ∈ sources →
  withinDirectory directory filePath = true →
  ∃ source, List.find (isLocalFor filePath) sources = Some source
            ∧ source ∈ sources ∧ isLocalFor filePath source = true.
Proof.
  intros Hin Hdir.
  destruct (List.find (isLocalFor filePath) sources) as [source|] eqn:Hfind.
  - apply find_some in Hfind as [Hs Hl]. exists source.
    by rewrite list_elem_of_In.
  - apply list_elem_of_In in Hin.
    apply (find_none _ _ Hfind) in Hin. simpl in Hin.
    by rewrite (withinDirectory_startsWith _ _ Hdir) in Hin.
Qed.

Lemma find_no_source filePath (sources : list CalendarSource) :
  (∀ directory color, LocalCalendarSource directory color ∈ sources →
                      startsWith filePath directory = false) →
  List.find (isLocalFor filePath) sources = None.
Proof.
  intros H. destruct (List.find _ _) as [source|] eqn:Hfind; [|done].
  apply find_some in Hfind as [Hs Hl]. apply list_elem_of_In in Hs.
  destruct source as [directory color| |]; simpl in Hl; try done.
  by rewrite (H _ _ Hs) in Hl.
Qed.


Lemma spread_keeps (a e : EventInput) : e ⊆ spread a e.
Proof. apply map_union_subseteq_l. Qed.

Section HandlerFacts.

Context {MetadataCache : Type}.
Variable getEventInputFromFile : MetadataCache → TFile → option EventInput.
Variable accepts : EventInput → bool.

Abbreviation onCacheUpdate := (onCacheUpdate getEventInputFromFile accepts).
Abbreviation onRename := (onRename getEventInputFromFile accepts).
Abbreviation notify := (notify getEventInputFromFile accepts).
Abbreviation run := (run getEventInputFromFile accepts).


(** C7. A metadata-changed notification for a file that no longer
    decodes to an event leaves the view as it is: an event the store
    holds for the path stays, unreplaced. *)
Theorem onCacheUpdate_not_an_event (app : App MetadataCache) file this :
  getEventInputFromFile (metadataCache app) file = None →
  onCacheUpdate app file this = this.
Proof.
  intros Hnull. unfold onCacheUpdate.
  rewrite Hnull. by destruct (List.find _ _).
Qed.

(** X7. A metadata-changed notification for a file whose path no
    configured local source's directory starts changes nothing,
    whatever the file decodes to. *)
Lemma onCacheUpdate_no_source (app : App MetadataCache) file this :
  (∀ directory color,
     LocalCalendarSource directory color ∈ calendarSources (settings this) →
     startsWith (path file) directory = false) →
  onCacheUpdate app file this = this.
Proof.
  intros H. unfold onCacheUpdate.
  by rewrite (find_no_source _ _ H).
Qed.

End HandlerFacts.

(** ** Updates that go through, seen on the store *)

Lemma eventsWithId_nil_iff p (cal : Calendar) :
  eventsWithId p cal = [] ↔ countId p cal = 0.
Proof. unfold countId. by rewrite length_zero_iff_nil. Qed.

Lemma eventsWithId_addEvent_fresh accepts e (cal : Calendar) :
  accepts e = true →
  countId (publicId e) cal = 0 →
  eventsWithId (publicId e) (addEvent accepts e cal) = [e].
Proof.
  intros Hacc H. apply eventsWithId_nil_iff in H.
  unfold eventsWithId, addEvent in *. rewrite Hacc.
  rewrite filter_app, H, filter_cons_True by done. done.
Qed.

Lemma withCalendar_closed m this :
  calendar this = None → withCalendar m this = this.
Proof. destruct this as [c s t]. simpl. by intros ->. Qed.

Lemma shown_zero_lookupEvent p this :
  shown p this = 0 ↔ lookupEvent this p = None.
Proof.
  unfold shown, lookupEvent. destruct (calendar this) as [cal|]; simpl; [|done].
  by rewrite getEventById_None.
Qed.

Section RenameFacts.

Context {MetadataCache : Type}.
Variable getEventInputFromFile : MetadataCache → TFile → option EventInput.
Variable accepts : EventInput → bool.
Hypothesis decoder_ok : decodesOwnPath getEventInputFromFile.

Abbreviation onCacheUpdate := (onCacheUpdate getEventInputFromFile accepts).
Abbreviation onRename := (onRename getEventInputFromFile accepts).

(** An update that goes through on a store with at most one event at
    the file's path leaves exactly the new event there, when the widget
    accepts it. *)
Lemma onCacheUpdate_sole_event (app : App MetadataCache) file this source data :
  List.find (isLocalFor (path file)) (calendarSources (settings this)) = Some source →
  getEventInputFromFile (metadataCache app) file = Some data →
  accepts (newEvent app source data) = true →
  is_Some (calendar this) →
  shown (path file) this ≤ 1 →
  ∃ added,
    eventsWithId (path file) <$> calendar (onCacheUpdate app file this) = Some [added]
    ∧ data ⊆ added.
Proof.
  intros Hfind Hdata Hacc [cal Hcal] Hone.
  exists (newEvent app source data). split; [|apply spread_keeps].
  unfold onCacheUpdate. rewrite Hfind, Hdata.
  fold (newEvent app source data).
  pose proof (shown_removeIfFound (path file) (path file) this) as Hrem.
  rewrite decide_True in Hrem by done.
  destruct (calendar (removeIfFound (lookupEvent this (path file)) this))
    as [cal'|] eqn:Hcal'.
  - unfold shown in Hrem at 1. rewrite Hcal' in Hrem. simpl in Hrem.
    simpl. rewrite Hcal'. simpl. f_equal.
    assert (publicId (newEvent app source data) = path file) as Hid.
    { unfold newEvent. by rewrite publicId_spread_colours, (decoder_ok _ _ _ Hdata). }
    rewrite <- Hid at 1.
    apply eventsWithId_addEvent_fresh; [done|]. rewrite Hid. lia.
  - assert (is_Some (calendar this)) as Hs by (rewrite Hcal; eauto).
    apply (calendar_removeIfFound_is_Some (lookupEvent this (path file))) in Hs.
    rewrite Hcal' in Hs. by destruct Hs.
Qed.

(** C3, as the code has it. A rename takes the event at the old path
    out of the store (nothing happens when there is none) and, for a
    file, runs the metadata-changed handler on the renamed file. In a
    view that shows one event at the old path and at most one at the
    new path: when the renamed file still decodes to an event, its new
    path lies within the directory of a configured local source and
    the widget accepts the event the handler hands it, no event is left
    at the old path and exactly one is at the new path, carrying every
    property of the fresh decode. *)
Theorem rename_destroys_and_recreates (app : App MetadataCache) file oldPath this :
  onRename app file oldPath this
  = match file with
    | IsFile f => onCacheUpdate app f (removeIfFound (lookupEvent this oldPath) this)
    | IsFolder _ => removeIfFound (lookupEvent this oldPath) this
    end
  ∧ (shown oldPath this = 0 → removeIfFound (lookupEvent this oldPath) this = this)
  ∧ ∀ f data directory color,
      file = IsFile f →
      oldPath ≠ path f →
      shown oldPath this = 1 →
      shown (path f) this ≤ 1 →
      getEventInputFromFile (metadataCache app) f = Some data →
      LocalCalendarSource directory color ∈ calendarSources (settings this) →
      withinDirectory directory (path f) = true →
      (∀ source,
         List.find (isLocalFor (path f)) (calendarSources (settings this))
         = Some source →
         accepts (newEvent app source data) = true) →
      shown oldPath (onRename app file oldPath this) = 0
      ∧ ∃ added,
          eventsWithId (path f) <$> calendar (onRename app file oldPath this)
          = Some [added]
          ∧ data ⊆ added.
Proof.
  split; [by destruct file|]. split.
  { intros H. apply shown_zero_lookupEvent in H. by rewrite H. }
  intros f data directory color -> Hne Hold Hnew Hdata Hin Hdir Hacc.
  unfold onRename.
  set (this1 := removeIfFound (lookupEvent this oldPath) this).
  assert (settings this1 = settings this) as Hset.
  { unfold this1. by destruct (lookupEvent this oldPath). }
  assert (is_Some (calendar this1)) as Hopen.
  { apply calendar_removeIfFound_is_Some.
    unfold shown in Hold. by destruct (calendar this). }
  assert (shown oldPath this1 = 0) as Hold1.
  { unfold this1. rewrite shown_removeIfFound, decide_True by done. lia. }
  assert (shown (path f) this1 = shown (path f) this) as Hnew1.
  { unfold this1. rewrite shown_removeIfFound, decide_False by done. done. }
  destruct (find_local_source _ _ _ _ Hin Hdir) as (source & Hfind & _ & _).
  specialize (Hacc source Hfind).
  rewrite <- Hset in Hfind.
  split.
  - rewrite (shown_onCacheUpdate _ _ decoder_ok), Hfind, Hdata.
    destruct Hopen as [cal1 ->]. by rewrite decide_False.
  - apply (onCacheUpdate_sole_event app f this1 source data); try done. lia.
Qed.

End RenameFacts.

Section CloseAndDelete.

Context {MetadataCache : Type}.
Variable getEventInputFromFile : MetadataCache → TFile → option EventInput.
Variable accepts : EventInput → bool.

Abbreviation onCacheUpdate := (onCacheUpdate getEventInputFromFile accepts).
Abbreviation onRename := (onRename getEventInputFromFile accepts).
Abbreviation notify := (notify getEventInputFromFile accepts).
Abbreviation run := (run getEventInputFromFile accepts).

(** C8. The delete of a file: the event the store holds for the file's
    path is taken out of it, so that the one event the view shows for
    the path is gone afterwards, and no other id is touched; when the
    view shows no event for the path, nothing changes. *)
Theorem onDelete_file f this :
  (∀ cal existing,
     calendar this = Some cal → getEventById cal (path f) = Some existing →
     calendar (onDelete (IsFile f) this) = Some (EventApi_remove existing cal))
  ∧ (shown (path f) this = 1 → shown (path f) (onDelete (IsFile f) this) = 0)
  ∧ (∀ p, p ≠ path f → shown p (onDelete (IsFile f) this) = shown p this)
  ∧ (shown (path f) this = 0 → onDelete (IsFile f) this = this).
Proof.
  simpl. split; [|split; [|split]].
  - intros cal existing Hcal Hex. unfold lookupEvent.
    rewrite Hcal. simpl. rewrite Hex. simpl. by rewrite Hcal.
  - intros H. rewrite shown_removeIfFound, decide_True by done. lia.
  - intros p Hne. by rewrite shown_removeIfFound, decide_False.
  - intros H. apply shown_zero_lookupEvent in H. by rewrite H.
Qed.

(** Without a widget no handler changes the view. *)
Lemma notify_closed (app : App MetadataCache) n this :
  calendar this = None → notify app n this = this.
Proof.
  intros Hc. destruct n as [file|file|file oldPath]; simpl.
  - unfold onCacheUpdate. repeat case_match; try done.
    rewrite calendar_removeIfFound_None by done. by apply withCalendar_closed.
  - destruct file; [|done]. by apply calendar_removeIfFound_None.
  - unfold onRename. rewrite calendar_removeIfFound_None by done.
    destruct file; [|done].
    unfold onCacheUpdate. repeat case_match; try done.
    rewrite calendar_removeIfFound_None by done. by apply withCalendar_closed.
Qed.

(** C9. Closing the view sets its calendar field to [null], and every
    metadata-changed, delete or rename notification that still arrives
    afterwards returns with the view as closing left it. *)
Theorem onClose_releases this trace :
  calendar (onClose this) = None
  ∧ run trace (onClose this) = onClose this.
Proof.
  assert (calendar (onClose this) = None) as Hc.
  { unfold onClose. by destruct (calendar this) eqn:H. }
  split; [done|].
  induction trace as [|[app n] trace IH]; [done|].
  simpl. by rewrite notify_closed.
Qed.

(** C10. The delete of a folder leaves the view as it is: every event
    stays in the store, those of documents below the folder too. *)
Theorem onDelete_folder (app : App MetadataCache) d this :
  notify app (VaultDelete (IsFolder d)) this = this
  ∧ ∀ p, shown p (onDelete (IsFolder d) this) = shown p this.
Proof. done. Qed.

End CloseAndDelete.

(** ** Opening the view *)

Section OpenFacts.

Context {Vault MetadataCache LocalEvents : Type}.
Variable getEventSourceFromLocalSource :
  Vault → MetadataCache → CalendarSource → bool → option LocalEvents.
Variable renderCalendar : list (EventSourceInput LocalEvents) → Calendar.

(** Whatever the source builder returns, [onOpen] renders the widget
    and leaves the text of [calendarEl] empty. *)
Lemma onOpen_always_renders loaded (vault : Vault) (app : App MetadataCache) this :
  textContent (onOpen getEventSourceFromLocalSource renderCalendar loaded vault app this) = ""
  ∧ is_Some (calendar (onOpen getEventSourceFromLocalSource renderCalendar loaded vault app this)).
Proof. unfold onOpen. simpl. eauto. Qed.

End OpenFacts.

(** ** Writing a moved or resized event back *)

Section ModifyEventFacts.

Context {Vault Frontmatter : Type}.
Variable getFileForEvent : Vault → EventApi → option TFile.
Variable upsertLocalEvent : Vault → string → Frontmatter → string → bool * Vault.
Variable getPathPrefix : string → string.
Variable eventApiToFrontmatter : EventApi → Frontmatter.

Abbreviation modifyEvent :=
  (modifyEvent getFileForEvent upsertLocalEvent getPathPrefix eventApiToFrontmatter).

(** C4. A move or resize of an event. When no backing document is
    found the handler returns [false] and leaves host and view as they
    are: nothing is written. When the document is found and the write
    reports failure, the handler returns [false] after showing the
    notice about events of the same name on the same date. It returns
    [true] only when the document was found and the write reported
    success, and then shows no notice. The view is never changed. *)
Theorem modifyEvent_outcomes event (host : Host Vault) this :
  let id := publicId (snd event) in
  let written :=
    upsertLocalEvent (vault host) (getPathPrefix id) (eventApiToFrontmatter event) id in
  (getFileForEvent (vault host) event = None →
     modifyEvent event host this
     = {| returned := false; hostAfter := host; viewAfter := this |})
  ∧ (is_Some (getFileForEvent (vault host) event) → fst written = false →
     returned (modifyEvent event host this) = false
     ∧ notices (hostAfter (modifyEvent event host this))
       = notices host ++ [duplicateNotice])
  ∧ (returned (modifyEvent event host this) = true →
     is_Some (getFileForEvent (vault host) event) ∧ fst written = true
     ∧ notices (hostAfter (modifyEvent event host this)) = notices host)
  ∧ viewAfter (modifyEvent event host this) = this.
Proof.
  unfold modifyEvent. simpl.
  destruct (getFileForEvent (vault host) event) as [file|]; simpl.
  - split; [done|]. split; [|split; [|done]].
    + intros _ Hw. by rewrite Hw.
    + intros Hw. rewrite Hw. eauto.
  - split; [done|]. split; [by intros []|]. by split.
Qed.

End ModifyEventFacts.

(** ** The handlers on the sample vault *)

Lemma sampleDecoder_ownPath : decodesOwnPath sampleDecoder.
Proof.
  intros cache file e. unfold sampleDecoder.
  destruct (cache !! path file) as [fm|]; simpl; [|done].
  intros [= <-]. unfold publicId. by rewrite lookup_insert_eq.
Qed.

Lemma single_identity_invariant_witness :
  shown "events/a.md" (run sampleDecoder sampleAccepts sampleTrace (openView [])) ≤ 1.
Proof.
  apply (single_identity_invariant sampleDecoder sampleAccepts sampleDecoder_ownPath).
  vm_compute. lia.
Defined.


Lemma onCacheUpdate_not_an_event_witness :
  onCacheUpdate sampleDecoder sampleAccepts (sampleApp ∅) {| path := "events/a.md" |}
    (openView [eventOf "events/a.md" standup])
  = openView [eventOf "events/a.md" standup].
Proof.
  apply (onCacheUpdate_not_an_event sampleDecoder sampleAccepts (sampleApp ∅)
           {| path := "events/a.md" |} (openView [eventOf "events/a.md" standup])).
  vm_compute. reflexivity.
Defined.


(** events/a.md is renamed to events/b.md. *)
Lemma rename_destroys_and_recreates_witness :
  shown "events/a.md"
    (onRename sampleDecoder sampleAccepts (sampleApp {[ "events/b.md" := standup ]})
       (IsFile {| path := "events/b.md" |}) "events/a.md"
       (openView [eventOf "events/a.md" standup])) = 0
  ∧ ∃ added,
      eventsWithId "events/b.md" <$>
        calendar
          (onRename sampleDecoder sampleAccepts (sampleApp {[ "events/b.md" := standup ]})
             (IsFile {| path := "events/b.md" |}) "events/a.md"
             (openView [eventOf "events/a.md" standup]))
      = Some [added]
      ∧ eventOf "events/b.md" standup ⊆ added.
Proof.
  destruct (rename_destroys_and_recreates sampleDecoder sampleAccepts sampleDecoder_ownPath
              (sampleApp {[ "events/b.md" := standup ]})
              (IsFile {| path := "events/b.md" |}) "events/a.md"
              (openView [eventOf "events/a.md" standup])) as (_ & _ & Hrename).
  apply (Hrename {| path := "events/b.md" |} (eventOf "events/b.md" standup)
           "events" None).
  - reflexivity.
  - simpl. discriminate.
  - vm_compute. reflexivity.
  - vm_compute. lia.
  - vm_compute. reflexivity.
  - apply list_elem_of_here.
  - vm_compute. reflexivity.
  - intros source Hfind. vm_compute in Hfind. injection Hfind as <-.
    vm_compute. reflexivity.
Defined.

(** C3 as stated fails when the file leaves the events directory:
    events/a.md held an event and archive/a.md still decodes to one,
    yet the view shows no event at archive/a.md after the rename. *)
Lemma rename_out_of_directory_counterexample :
  shown "events/a.md" (openView [eventOf "events/a.md" standup]) = 1
  ∧ sampleDecoder {[ "archive/a.md" := standup ]} {| path := "archive/a.md" |}
    = Some (eventOf "archive/a.md" standup)
  ∧ shown "events/a.md"
      (onRename sampleDecoder sampleAccepts (sampleApp {[ "archive/a.md" := standup ]})
         (IsFile {| path := "archive/a.md" |}) "events/a.md"
         (openView [eventOf "events/a.md" standup])) = 0
  ∧ shown "archive/a.md"
      (onRename sampleDecoder sampleAccepts (sampleApp {[ "archive/a.md" := standup ]})
         (IsFile {| path := "archive/a.md" |}) "events/a.md"
         (openView [eventOf "events/a.md" standup])) = 0.
Proof. vm_compute. done. Qed.

(** C5, at an input where the code departs from it. The only local
    source has the directory events; events2/a.md lies in the sibling
    folder events2, outside that directory, and decodes to an event.
    The lookup compares by [startsWith] without a separator, finds the
    source, and the handler adds the event. *)
Theorem onCacheUpdate_sibling_directory :
  calendarSources eventsSettings = [LocalCalendarSource "events" None]
  ∧ withinDirectory "events" "events2/a.md" = false
  ∧ startsWith "events2/a.md" "events" = true
  ∧ shown "events2/a.md" (openView []) = 0
  ∧ shown "events2/a.md"
      (onCacheUpdate sampleDecoder sampleAccepts (sampleApp {[ "events2/a.md" := standup ]})
         {| path := "events2/a.md" |} (openView [])) = 1.
Proof. vm_compute. done. Qed.

(** C6, at an input where the code departs from it. The only source is
    a local one whose directory does not exist, so its build gives
    [null]; the [null] is filtered out, the array that remains is
    truthy, and [onOpen] renders a widget without events instead of
    the error text. *)
Theorem onOpen_missing_directory :
  sampleSource [] ∅ (LocalCalendarSource "missing" None) false = None
  ∧ onOpen sampleSource sampleRender missingSettings [] (sampleApp ∅) closedView
    = {| calendar := Some []; settings := missingSettings; textContent := "" |}.
Proof. vm_compute. done. Qed.

(** events/a.md is deleted while the store holds its event. *)
Lemma onDelete_file_witness :
  shown "events/a.md"
    (onDelete (IsFile {| path := "events/a.md" |})
       (openView [eventOf "events/a.md" standup; eventOf "events/b.md" standup])) = 0
  ∧ shown "events/b.md"
      (onDelete (IsFile {| path := "events/a.md" |})
         (openView [eventOf "events/a.md" standup; eventOf "events/b.md" standup])) = 1
  ∧ onDelete (IsFile {| path := "events/c.md" |})
      (openView [eventOf "events/a.md" standup; eventOf "events/b.md" standup])
    = openView [eventOf "events/a.md" standup; eventOf "events/b.md" standup].
Proof.
  destruct (onDelete_file {| path := "events/a.md" |}
              (openView [eventOf "events/a.md" standup; eventOf "events/b.md" standup]))
    as (_ & Hgone & Hother & _).
  destruct (onDelete_file {| path := "events/c.md" |}
              (openView [eventOf "events/a.md" standup; eventOf "events/b.md" standup]))
    as (_ & _ & _ & Habsent).
  split; [|split].
  - apply Hgone. vm_compute. reflexivity.
  - rewrite (Hother "events/b.md"); [vm_compute; reflexivity|discriminate].
  - apply Habsent. vm_compute. reflexivity.
Defined.

(** A move of the event of events/a.md: with the document gone; with a
    second document of the same title and date; with the vault in order. *)
Lemma modifyEvent_outcomes_witness :
  sampleModify (0, eventOf "events/a.md" standup) (hostOf ∅) (openView [])
  = {| returned := false; hostAfter := hostOf ∅; viewAfter := openView [] |}
  ∧ (returned
       (sampleModify (0, eventOf "events/a.md" standup)
          (hostOf {[ "events/a.md" := standup; "events/b.md" := standup ]})
          (openView [])) = false
     ∧ notices
         (hostAfter
            (sampleModify (0, eventOf "events/a.md" standup)
               (hostOf {[ "events/a.md" := standup; "events/b.md" := standup ]})
               (openView [])))
       = [duplicateNotice])
  ∧ returned
      (sampleModify (0, eventOf "events/a.md" standup)
         (hostOf {[ "events/a.md" := standup ]}) (openView [])) = true.
Proof.
  split; [|split].
  - apply (modifyEvent_outcomes sampleGetFile sampleUpsert (λ _, "events") sampleEncode
             (0, eventOf "events/a.md" standup) (hostOf ∅) (openView [])).
    vm_compute. reflexivity.
  - apply (modifyEvent_outcomes sampleGetFile sampleUpsert (λ _, "events") sampleEncode
             (0, eventOf "events/a.md" standup)
             (hostOf {[ "events/a.md" := standup; "events/b.md" := standup ]})
             (openView [])).
    + vm_compute. eauto.
    + vm_compute. reflexivity.
  - vm_compute. reflexivity.
Defined.

(** * Further properties of the handlers *)

(** ** The store, event by event *)

Lemma eventsWithId_addEvent_other accepts q e (cal : Calendar) :
  publicId e ≠ q → eventsWithId q (addEvent accepts e cal) = eventsWithId q cal.
Proof.
  intros Hne. unfold eventsWithId, addEvent.
  destruct (accepts e); [|done].
  rewrite filter_app, filter_cons_False, filter_nil by done.
  apply app_nil_r.
Qed.

Lemma eventsWithId_delete_other q (cal : Calendar) i e :
  cal !! i = Some e → publicId e ≠ q →
  eventsWithId q (delete i cal) = eventsWithId q cal.
Proof.
  unfold eventsWithId. revert i.
  induction cal as [|x cal IH]; intros i Hi Hne; [done|].
  destruct i as [|i]; simpl in *.
  - injection Hi as ->. by rewrite filter_cons_False.
  - rewrite !filter_cons, (IH i Hi Hne). done.
Qed.

Lemma getEventById_appended e (cal : Calendar) :
  countId (publicId e) cal = 0 →
  getEventById (cal ++ [e]) (publicId e) = Some (length cal, e).
Proof.
  intros H. apply getEventById_None in H.
  unfold getEventById in *.
  rewrite list_find_app_r by done. simpl.
  by rewrite decide_True.
Qed.

Lemma remove_appended e (cal : Calendar) :
  EventApi_remove (length cal, e) (cal ++ [e]) = cal.
Proof.
  unfold EventApi_remove. simpl.
  rewrite delete_middle. apply app_nil_r.
Qed.

Lemma eventsShown_removeIfFound q id this :
  q ≠ id →
  eventsShown q (removeIfFound (lookupEvent this id) this) = eventsShown q this.
Proof.
  intros Hne. unfold eventsShown, lookupEvent, removeIfFound.
  destruct (calendar this) as [cal|] eqn:Hc; simpl; [|by rewrite Hc].
  destruct (getEventById cal id) as [ev|] eqn:Hev; simpl; rewrite Hc; [|done].
  simpl. f_equal. apply getEventById_Some in Hev as [Hi Hp].
  apply eventsWithId_delete_other with (snd ev); [done|congruence].
Qed.

Lemma eventsShown_addEvent accepts q e this :
  publicId e ≠ q →
  eventsShown q (withCalendar (addEvent accepts e) this) = eventsShown q this.
Proof.
  intros Hne. unfold eventsShown, withCalendar. simpl.
  destruct (calendar this) as [cal|]; simpl; [|done].
  f_equal. by apply eventsWithId_addEvent_other.
Qed.

(** The handlers' steps keep the settings and the text, and neither
    create nor drop the widget. *)
Lemma removeIfFound_keeps ev this :
  settings (removeIfFound ev this) = settings this
  ∧ textContent (removeIfFound ev this) = textContent this
  ∧ (calendar (removeIfFound ev this) = None ↔ calendar this = None).
Proof.
  destruct ev as [e|]; simpl; [|done].
  split; [done|]. split; [done|]. apply fmap_None.
Qed.

Lemma withCalendar_keeps m this :
  settings (withCalendar m this) = settings this
  ∧ textContent (withCalendar m this) = textContent this
  ∧ (calendar (withCalendar m this) = None ↔ calendar this = None).
Proof. simpl. split; [done|]. split; [done|]. apply fmap_None. Qed.

Section FrameFacts.

Context {MetadataCache : Type}.
Variable getEventInputFromFile : MetadataCache → TFile → option EventInput.
Variable accepts : EventInput → bool.

Abbreviation onCacheUpdate := (onCacheUpdate getEventInputFromFile accepts).
Abbreviation onRename := (onRename getEventInputFromFile accepts).
Abbreviation notify := (notify getEventInputFromFile accepts).
Abbreviation run := (run getEventInputFromFile accepts).

Lemma onCacheUpdate_keeps (app : App MetadataCache) file this :
  settings (onCacheUpdate app file this) = settings this
  ∧ textContent (onCacheUpdate app file this) = textContent this
  ∧ (calendar (onCacheUpdate app file this) = None ↔ calendar this = None).
Proof.
  unfold onCacheUpdate.
  destruct (List.find _ _) as [source|]; [|done].
  destruct (getEventInputFromFile _ _) as [data|]; [|done].
  destruct (withCalendar_keeps
              (addEvent accepts
                 (spread
                    {[ "color" := JStr (orElse (sourceColor source)
                                          (getPropertyValue app "--interactive-accent"));
                       "textColor" := JStr (getPropertyValue app "--text-on-accent") ]}
                    data))
              (removeIfFound (lookupEvent this (path file)) this)) as (Hs & Ht & Hc).
  destruct (removeIfFound_keeps (lookupEvent this (path file)) this) as (Hs' & Ht' & Hc').
  rewrite Hs, Ht, Hc. done.
Qed.

Lemma notify_keeps (app : App MetadataCache) n this :
  settings (notify app n this) = settings this
  ∧ textContent (notify app n this) = textContent this
  ∧ (calendar (notify app n this) = None ↔ calendar this = None).
Proof.
  destruct n as [file|[f|d]|[f|d] oldPath]; simpl.
  - apply onCacheUpdate_keeps.
  - apply removeIfFound_keeps.
  - done.
  - unfold onRename.
    destruct (onCacheUpdate_keeps app f (removeIfFound (lookupEvent this oldPath) this))
      as (Hs & Ht & Hc).
    destruct (removeIfFound_keeps (lookupEvent this oldPath) this) as (Hs' & Ht' & Hc').
    rewrite Hs, Ht, Hc. done.
  - apply removeIfFound_keeps.
Qed.

(** X4. No sequence of metadata-changed, delete and rename
    notifications changes the settings or the text of the view, and
    none creates or drops the widget: a view is open afterwards exactly
    when it was open before. *)
Theorem run_keeps_view trace this :
  settings (run trace this) = settings this
  ∧ textContent (run trace this) = textContent this
  ∧ (calendar (run trace this) = None ↔ calendar this = None).
Proof.
  revert this. induction trace as [|[app n] trace IH]; intros this; [done|].
  simpl. destruct (IH (notify app n this)) as (Hs & Ht & Hc).
  destruct (notify_keeps app n this) as (Hs' & Ht' & Hc').
  rewrite Hs, Ht, Hc. done.
Qed.

Hypothesis decoder_ok : decodesOwnPath getEventInputFromFile.

Lemma eventsShown_onCacheUpdate q (app : App MetadataCache) file this :
  q ≠ path file →
  eventsShown q (onCacheUpdate app file this) = eventsShown q this.
Proof.
  intros Hne. unfold onCacheUpdate.
  destruct (List.find _ _) as [source|]; [|done].
  destruct (getEventInputFromFile _ _) as [data|] eqn:Hdata; [|done].
  rewrite eventsShown_addEvent.
  - by apply eventsShown_removeIfFound.
  - rewrite publicId_spread_colours, (decoder_ok _ _ _ Hdata). congruence.
Qed.

Lemma eventsShown_notify q (app : App MetadataCache) n this :
  q ∉ touched n →
  eventsShown q (notify app n this) = eventsShown q this.
Proof.
  destruct n as [file|[f|d]|[f|d] oldPath]; simpl; intros Hq.
  - apply eventsShown_onCacheUpdate. set_solver.
  - apply eventsShown_removeIfFound. set_solver.
  - done.
  - unfold onRename. rewrite eventsShown_onCacheUpdate by set_solver.
    apply eventsShown_removeIfFound. set_solver.
  - apply eventsShown_removeIfFound. set_solver.
Qed.

(** X1. A notification touches only the ids it names: across any
    sequence of notifications none of which names the path [q] (as the
    changed, deleted or renamed file, or as the old path of a rename),
    the events with id [q] stay in the store as they were, in order. *)
Theorem run_frame q trace this :
  Forall (λ step, q ∉ touched (snd step)) trace →
  eventsShown q (run trace this) = eventsShown q this.
Proof.
  revert this. induction trace as [|[app n] trace IH]; intros this Hq; [done|].
  apply Forall_cons in Hq as [Hn Hq]. simpl.
  rewrite (IH _ Hq). by apply eventsShown_notify.
Qed.

End FrameFacts.

(** ** Updates in sequence *)

Lemma countId_storeWithout id (cal : Calendar) :
  countId id (storeWithout id cal) = pred (countId id cal).
Proof.
  unfold storeWithout. destruct (getEventById cal id) as [ev|] eqn:Hev.
  - by rewrite (countId_remove_same _ _ _ Hev).
  - apply getEventById_None in Hev. by rewrite Hev.
Qed.

Lemma storeWithout_absent id (cal : Calendar) :
  countId id cal = 0 → storeWithout id cal = cal.
Proof.
  intros H. apply getEventById_None in H. unfold storeWithout. by rewrite H.
Qed.

(** Whether the widget stored the event or refused it, taking the event
    at its id out again gives the store back. *)
Lemma storeWithout_added accepts id e (cal : Calendar) :
  publicId e = id → countId id cal = 0 →
  storeWithout id (addEvent accepts e cal) = cal.
Proof.
  intros Hid Hfree. unfold addEvent. destruct (accepts e).
  - unfold storeWithout. subst id.
    rewrite getEventById_appended by done. apply remove_appended.
  - by apply storeWithout_absent.
Qed.

Lemma onDelete_open f this cal :
  calendar this = Some cal →
  onDelete (IsFile f) this
  = {| calendar := Some (storeWithout (path f) cal);
       settings := settings this;
       textContent := textContent this |}.
Proof.
  intros Hcal. unfold onDelete, lookupEvent, storeWithout. rewrite Hcal. simpl.
  destruct (getEventById cal (path f)); unfold withCalendar; simpl;
    destruct this as [c s t]; simpl in *; by subst c.
Qed.

Lemma spread_colours_textColor color textColor (e : EventInput) :
  spread {[ "color" := color; "textColor" := textColor ]} e !! "textColor" =
  Some (default textColor (e !! "textColor")).
Proof.
  unfold spread. rewrite lookup_union.
  destruct (e !! "textColor") as [c|]; simpl.
  - by destruct (_ !! "textColor").
  - rewrite lookup_insert_ne by done. by rewrite lookup_singleton_eq.
Qed.

Section UpdateFacts.

Context {MetadataCache : Type}.
Variable getEventInputFromFile : MetadataCache → TFile → option EventInput.
Variable accepts : EventInput → bool.

Abbreviation onCacheUpdate := (onCacheUpdate getEventInputFromFile accepts).

(** The view after [onCacheUpdate], case by case. *)
Lemma onCacheUpdate_closed (app : App MetadataCache) file this :
  calendar this = None → onCacheUpdate app file this = this.
Proof.
  intros Hc. unfold onCacheUpdate. repeat case_match; try done.
  rewrite calendar_removeIfFound_None by done. by apply withCalendar_closed.
Qed.

Lemma onCacheUpdate_skipped (app : App MetadataCache) file this :
  List.find (isLocalFor (path file)) (calendarSources (settings this)) = None
  ∨ getEventInputFromFile (metadataCache app) file = None →
  onCacheUpdate app file this = this.
Proof.
  unfold onCacheUpdate. intros [->| ->]; [done|]. by destruct (List.find _ _).
Qed.

Lemma onCacheUpdate_open (app : App MetadataCache) file this source data cal :
  List.find (isLocalFor (path file)) (calendarSources (settings this)) = Some source →
  getEventInputFromFile (metadataCache app) file = Some data →
  calendar this = Some cal →
  onCacheUpdate app file this
  = {| calendar := Some (addEvent accepts (newEvent app source data)
                           (storeWithout (path file) cal));
       settings := settings this;
       textContent := textContent this |}.
Proof.
  intros Hfind Hdata Hcal. unfold onCacheUpdate, lookupEvent, storeWithout, newEvent.
  rewrite Hfind, Hdata, Hcal. simpl.
  destruct (getEventById cal (path file)); unfold withCalendar; simpl;
    by rewrite ?Hcal.
Qed.

(** X5. A metadata-changed notification for a file the store holds no
    event for, when the file decodes, its path lies within the
    directory of a configured local source and the widget accepts the
    event the handler hands it: the store afterwards is the old store
    with one event appended, nothing is removed; the new event keeps
    every decoded property, and its text colour is the decoded one when
    there is one, else the theme's text-on-accent. *)
Theorem onCacheUpdate_new_file (app : App MetadataCache) file this
    data directory color cal :
  getEventInputFromFile (metadataCache app) file = Some data →
  LocalCalendarSource directory color ∈ calendarSources (settings this) →
  withinDirectory directory (path file) = true →
  (∀ source,
     List.find (isLocalFor (path file)) (calendarSources (settings this))
     = Some source →
     accepts (newEvent app source data) = true) →
  calendar this = Some cal →
  countId (path file) cal = 0 →
  ∃ added,
    calendar (onCacheUpdate app file this) = Some (cal ++ [added])
    ∧ data ⊆ added
    ∧ added !! "textColor"
      = Some (default (JStr (getPropertyValue app "--text-on-accent"))
                (data !! "textColor")).
Proof.
  intros Hdata Hin Hdir Hacc Hcal Habsent.
  destruct (find_local_source _ _ _ _ Hin Hdir) as (source & Hfind & _ & _).
  exists (newEvent app source data).
  rewrite (onCacheUpdate_open _ _ _ _ _ _ Hfind Hdata Hcal). simpl.
  rewrite storeWithout_absent by done.
  unfold addEvent. rewrite (Hacc source Hfind).
  split; [done|]. split; [apply spread_keeps|apply spread_colours_textColor].
Qed.

Hypothesis decoder_ok : decodesOwnPath getEventInputFromFile.

Lemma publicId_newEvent (app : App MetadataCache) source file data :
  getEventInputFromFile (metadataCache app) file = Some data →
  publicId (newEvent app source data) = path file.
Proof.
  intros Hdata. unfold newEvent.
  by rewrite publicId_spread_colours, (decoder_ok _ _ _ Hdata).
Qed.

Lemma onCacheUpdate_overwrites (app1 app2 : App MetadataCache) file this :
  shown (path file) this ≤ 1 →
  is_Some (getEventInputFromFile (metadataCache app2) file) →
  onCacheUpdate app2 file (onCacheUpdate app1 file this)
  = onCacheUpdate app2 file this.
Proof.
  intros Hone [data2 Hdata2].
  destruct (List.find (isLocalFor (path file)) (calendarSources (settings this)))
    as [source|] eqn:Hfind; [|by rewrite (onCacheUpdate_skipped app1) by auto].
  destruct (getEventInputFromFile (metadataCache app1) file)
    as [data1|] eqn:Hdata1; [|by rewrite (onCacheUpdate_skipped app1) by auto].
  destruct (calendar this) as [cal|] eqn:Hcal;
    [|by rewrite (onCacheUpdate_closed app1) by done].
  rewrite (onCacheUpdate_open app1 _ _ _ _ _ Hfind Hdata1 Hcal).
  rewrite (onCacheUpdate_open app2 _ this _ _ _ Hfind Hdata2 Hcal).
  erewrite (onCacheUpdate_open app2); [|exact Hfind|exact Hdata2|reflexivity].
  simpl. do 3 f_equal.
  assert (countId (path file) (storeWithout (path file) cal) = 0) as Hfree.
  { rewrite countId_storeWithout. unfold shown in Hone. rewrite Hcal in Hone.
    simpl in Hone. lia. }
  apply storeWithout_added; [by apply publicId_newEvent|done].
Qed.

(** X2. On a view that shows at most one event for the file's path,
    the last metadata-changed notification wins: when the file decodes
    at the second notification, handling both leaves the view that
    handling the second alone leaves. In particular the same
    notification handled twice leaves the view as handled once. *)
Theorem onCacheUpdate_last_wins (app1 app2 : App MetadataCache) file this :
  shown (path file) this ≤ 1 →
  (is_Some (getEventInputFromFile (metadataCache app2) file) →
   onCacheUpdate app2 file (onCacheUpdate app1 file this)
   = onCacheUpdate app2 file this)
  ∧ onCacheUpdate app1 file (onCacheUpdate app1 file this)
    = onCacheUpdate app1 file this.
Proof.
  intros Hone. split; [by apply onCacheUpdate_overwrites|].
  destruct (getEventInputFromFile (metadataCache app1) file) as [data|] eqn:Hdata.
  - apply onCacheUpdate_overwrites; [done|]. rewrite Hdata. eauto.
  - by rewrite !(onCacheUpdate_skipped app1) by auto.
Qed.

(** X3. Create, then delete: on a view that shows no event for the
    file's path, a metadata-changed notification for the file followed
    by the delete of the file leaves the view exactly as it was,
    whether or not the update went through. *)
Theorem onDelete_undoes_onCacheUpdate (app : App MetadataCache) file this :
  shown (path file) this = 0 →
  onDelete (IsFile file) (onCacheUpdate app file this) = this.
Proof.
  intros Habsent.
  assert (onDelete (IsFile file) this = this) as Hnoop.
  { simpl. apply shown_zero_lookupEvent in Habsent. by rewrite Habsent. }
  destruct (List.find (isLocalFor (path file)) (calendarSources (settings this)))
    as [source|] eqn:Hfind; [|by rewrite onCacheUpdate_skipped by auto].
  destruct (getEventInputFromFile (metadataCache app) file)
    as [data|] eqn:Hdata; [|by rewrite onCacheUpdate_skipped by auto].
  destruct (calendar this) as [cal|] eqn:Hcal;
    [|by rewrite onCacheUpdate_closed by done].
  rewrite (onCacheUpdate_open _ _ _ _ _ _ Hfind Hdata Hcal).
  unfold shown in Habsent. rewrite Hcal in Habsent. simpl in Habsent.
  rewrite storeWithout_absent by done.
  erewrite onDelete_open by reflexivity. simpl.
  rewrite storeWithout_added by (by try apply publicId_newEvent).
  destruct this as [c s t]. simpl in *. by subst c.
Qed.

End UpdateFacts.

(** ** Which source an update is looked up under *)

Lemma find_first {A} (f : A → bool) (before : list A) x (rest : list A) :
  Forall (λ y, f y = false) before → f x = true →
  List.find f (before ++ x :: rest) = Some x.
Proof.
  intros Hbefore Hx. induction Hbefore as [|y before Hy _ IH]; simpl.
  - by rewrite Hx.
  - by rewrite Hy.
Qed.

Section SourceFacts.

Context {MetadataCache : Type}.
Variable getEventInputFromFile : MetadataCache → TFile → option EventInput.
Variable accepts : EventInput → bool.

Abbreviation onCacheUpdate := (onCacheUpdate getEventInputFromFile accepts).
Abbreviation onRename := (onRename getEventInputFromFile accepts).

(** X6. Among the configured sources the first local one whose
    directory starts the file's path decides the update: the sources
    after it, also local ones with a longer matching directory, have no
    influence on the store the update leaves. *)
Theorem onCacheUpdate_first_source_wins (app : App MetadataCache) file this
    before source rest :
  Forall (λ s, isLocalFor (path file) s = false) before →
  isLocalFor (path file) source = true →
  calendar (onCacheUpdate app file (withSources (before ++ source :: rest) this))
  = calendar (onCacheUpdate app file (withSources [source] this)).
Proof.
  intros Hbefore Hsource. unfold onCacheUpdate. simpl.
  rewrite (find_first _ _ _ _ Hbefore Hsource), Hsource.
  destruct (getEventInputFromFile _ _) as [data|]; [|done].
  unfold lookupEvent. simpl.
  destruct (calendar this ≫= _); done.
Qed.

Hypothesis decoder_ok : decodesOwnPath getEventInputFromFile.

(** The number of events per id after the rename of a file that goes
    through. *)
Lemma shown_onRename_through p (app : App MetadataCache) f oldPath this source data :
  oldPath ≠ path f →
  is_Some (calendar this) →
  List.find (isLocalFor (path f)) (calendarSources (settings this)) = Some source →
  getEventInputFromFile (metadataCache app) f = Some data →
  accepts (newEvent app source data) = true →
  shown p (onRename app (IsFile f) oldPath this) =
  if decide (p = oldPath) then pred (shown p this)
  else if decide (p = path f) then S (pred (shown p this))
  else shown p this.
Proof.
  intros Hne Hopen Hfind Hdata Hacc. unfold onRename.
  destruct (removeIfFound_keeps (lookupEvent this oldPath) this) as (Hs & _ & _).
  apply (calendar_removeIfFound_is_Some (lookupEvent this oldPath)) in Hopen.
  destruct Hopen as [cal Hcal].
  rewrite (shown_onCacheUpdate _ _ decoder_ok), Hs, Hfind, Hdata, Hcal, Hacc.
  rewrite !shown_removeIfFound.
  repeat case_decide; congruence.
Qed.

(** X10. A file renamed and renamed back: on an open view that shows
    one event for the file's path and none for the other path, when
    the file decodes at both renames, both paths lie within the
    directory of a configured local source and the widget accepts the
    event the handler hands it at each rename, the view shows one
    event for the second path after the first rename, and again one
    event for the first path and none for the other after the second. *)
Theorem rename_there_and_back (app1 app2 : App MetadataCache) fa fb this
    dataa datab directorya colora directoryb colorb :
  path fa ≠ path fb →
  shown (path fa) this = 1 →
  shown (path fb) this = 0 →
  getEventInputFromFile (metadataCache app1) fb = Some datab →
  getEventInputFromFile (metadataCache app2) fa = Some dataa →
  LocalCalendarSource directorya colora ∈ calendarSources (settings this) →
  withinDirectory directorya (path fa) = true →
  LocalCalendarSource directoryb colorb ∈ calendarSources (settings this) →
  withinDirectory directoryb (path fb) = true →
  (∀ source,
     List.find (isLocalFor (path fb)) (calendarSources (settings this))
     = Some source →
     accepts (newEvent app1 source datab) = true) →
  (∀ source,
     List.find (isLocalFor (path fa)) (calendarSources (settings this))
     = Some source →
     accepts (newEvent app2 source dataa) = true) →
  shown (path fb) (onRename app1 (IsFile fb) (path fa) this) = 1
  ∧ shown (path fa)
      (onRename app2 (IsFile fa) (path fb)
         (onRename app1 (IsFile fb) (path fa) this)) = 1
  ∧ shown (path fb)
      (onRename app2 (IsFile fa) (path fb)
         (onRename app1 (IsFile fb) (path fa) this)) = 0.
Proof.
  intros Hne Ha Hb Hdb Hda Hina Hdira Hinb Hdirb Haccb Hacca.
  destruct (find_local_source _ _ _ _ Hina Hdira) as (sourcea & Hfa & _ & _).
  destruct (find_local_source _ _ _ _ Hinb Hdirb) as (sourceb & Hfb & _ & _).
  specialize (Haccb sourceb Hfb). specialize (Hacca sourcea Hfa).
  assert (is_Some (calendar this)) as Hopen.
  { unfold shown in Ha. by destruct (calendar this). }
  set (there := onRename app1 (IsFile fb) (path fa) this).
  assert (∀ p, shown p there =
               if decide (p = path fa) then pred (shown p this)
               else if decide (p = path fb) then S (pred (shown p this))
               else shown p this) as Hthere.
  { intros p. by apply shown_onRename_through with sourceb datab. }
  assert (settings there = settings this
          ∧ (calendar there = None ↔ calendar this = None)) as [Hs Hc].
  { destruct (notify_keeps getEventInputFromFile accepts app1
                (VaultRename (IsFile fb) (path fa)) this) as (H1 & _ & H2).
    split; [exact H1|exact H2]. }
  assert (is_Some (calendar there)) as Hopen'.
  { destruct (calendar there) eqn:E; [eauto|].
    rewrite (proj1 Hc eq_refl) in Hopen. by destruct Hopen. }
  assert (∀ p, shown p (onRename app2 (IsFile fa) (path fb) there) =
               if decide (p = path fb) then pred (shown p there)
               else if decide (p = path fa) then S (pred (shown p there))
               else shown p there) as Hback.
  { intros p. apply shown_onRename_through with sourcea dataa; try done.
    by rewrite Hs. }
  rewrite !Hback, !Hthere.
  repeat case_decide; try congruence; lia.
Qed.

End SourceFacts.

(** ** What [onOpen] hands to the widget *)

Section OpenSourceFacts.

Context {Vault MetadataCache LocalEvents : Type}.
Variable getEventSourceFromLocalSource :
  Vault → MetadataCache → CalendarSource → bool → option LocalEvents.
Variable renderCalendar : list (EventSourceInput LocalEvents) → Calendar.

Abbreviation onOpen := (onOpen getEventSourceFromLocalSource renderCalendar).

(** X8. A configured iCal source never reaches the widget: opening the
    view with or without it gives the same view. *)
Theorem onOpen_ignores_ical before url color rest recursive
    (vault : Vault) (app : App MetadataCache) this :
  calendar (onOpen (settingsOf (before ++ ICalendarSource url color :: rest) recursive)
              vault app this)
  = calendar (onOpen (settingsOf (before ++ rest) recursive) vault app this)
  ∧ textContent (onOpen (settingsOf (before ++ ICalendarSource url color :: rest) recursive)
                   vault app this)
    = textContent (onOpen (settingsOf (before ++ rest) recursive) vault app this).
Proof.
  unfold onOpen. simpl. by rewrite !List.filter_app.
Qed.

(** X9. A local source whose build gives [null] is skipped without a
    trace: the widget is rendered from the remaining sources, as if the
    source were not configured. *)
Theorem onOpen_skips_unbuilt_source before directory color rest recursive
    (vault : Vault) (app : App MetadataCache) this :
  getEventSourceFromLocalSource vault (metadataCache app)
    (LocalCalendarSource directory color) recursive = None →
  calendar (onOpen (settingsOf (before ++ LocalCalendarSource directory color :: rest)
                      recursive) vault app this)
  = calendar (onOpen (settingsOf (before ++ rest) recursive) vault app this)
  ∧ textContent (onOpen (settingsOf (before ++ LocalCalendarSource directory color :: rest)
                           recursive) vault app this) = "".
Proof.
  intros Hnull. unfold onOpen. simpl. split; [|done].
  rewrite !List.filter_app. simpl.
  rewrite !map_app. simpl. rewrite Hnull.
  rewrite !omap_app. simpl. done.
Qed.

End OpenSourceFacts.

(** ** What a metadata change cannot do *)

Section StaleFacts.

Context {MetadataCache : Type}.
Variable getEventInputFromFile : MetadataCache → TFile → option EventInput.
Variable accepts : EventInput → bool.
Hypothesis decoder_ok : decodesOwnPath getEventInputFromFile.

Abbreviation onCacheUpdate := (onCacheUpdate getEventInputFromFile accepts).
Abbreviation run := (run getEventInputFromFile accepts).

Lemma shown_onCacheUpdate_ge p (app : App MetadataCache) file this :
  (∀ source data,
     getEventInputFromFile (metadataCache app) file = Some data →
     accepts (newEvent app source data) = true) →
  shown p this ≤ shown p (onCacheUpdate app file this).
Proof.
  intros Hacc. rewrite (shown_onCacheUpdate _ _ decoder_ok).
  destruct (List.find _ _) as [source|]; [|done].
  destruct (getEventInputFromFile _ _) as [data|] eqn:Hdata; [|done].
  rewrite (Hacc source data eq_refl).
  repeat case_match; lia.
Qed.

(** X11. As long as the widget accepts every event the files decode
    to, metadata-changed notifications alone never take an id out of
    the view: across any sequence of them the number of events shown
    for a path does not drop, also when a file stops decoding to an
    event or no longer falls under a local source. *)
Theorem metadata_changes_never_hide p trace this :
  Forall (λ step,
            ∃ file, snd step = MetadataChanged file
                    ∧ ∀ source data,
                        getEventInputFromFile (metadataCache (fst step)) file = Some data →
                        accepts (newEvent (fst step) source data) = true) trace →
  shown p this ≤ shown p (run trace this).
Proof.
  revert this. induction trace as [|[app n] trace IH]; intros this Hall; [done|].
  apply Forall_cons in Hall as [(file & Hn & Hacc) Hall]. simpl in Hn, Hacc.
  subst n. simpl.
  etrans; [by apply (shown_onCacheUpdate_ge p app file)|]. by apply IH.
Qed.

End StaleFacts.

(** ** The further properties on the sample vault *)

(** The sample widget looks only at the date, which the colours the
    handler adds leave alone. *)
Lemma sampleAccepts_newEvent {MetadataCache : Type} (app : App MetadataCache)
    source data :
  sampleAccepts (newEvent app source data) = sampleAccepts data.
Proof.
  unfold sampleAccepts, newEvent, spread. rewrite lookup_union.
  rewrite lookup_insert_ne by done. rewrite lookup_singleton_ne by done.
  by destruct (data !! "date").
Qed.

Lemma run_frame_witness :
  eventsShown "events/c.md"
    (run sampleDecoder sampleAccepts sampleTrace (openView [eventOf "events/c.md" standup]))
  = eventsShown "events/c.md" (openView [eventOf "events/c.md" standup]).
Proof.
  apply (run_frame sampleDecoder sampleAccepts sampleDecoder_ownPath "events/c.md" sampleTrace
           (openView [eventOf "events/c.md" standup])).
  unfold sampleTrace. repeat apply Forall_cons_2; [..|apply Forall_nil_2];
    simpl; rewrite ?not_elem_of_cons; repeat split;
    first [discriminate|apply not_elem_of_nil].
Defined.

(** The title of events/a.md is edited twice. *)
Lemma onCacheUpdate_last_wins_witness :
  onCacheUpdate sampleDecoder sampleAccepts (sampleApp {[ "events/a.md" := retitled ]})
    {| path := "events/a.md" |}
    (onCacheUpdate sampleDecoder sampleAccepts (sampleApp {[ "events/a.md" := standup ]})
       {| path := "events/a.md" |} (openView [eventOf "events/a.md" standup]))
  = onCacheUpdate sampleDecoder sampleAccepts (sampleApp {[ "events/a.md" := retitled ]})
      {| path := "events/a.md" |} (openView [eventOf "events/a.md" standup]).
Proof.
  apply (onCacheUpdate_last_wins sampleDecoder sampleAccepts sampleDecoder_ownPath
           (sampleApp {[ "events/a.md" := standup ]})
           (sampleApp {[ "events/a.md" := retitled ]})
           {| path := "events/a.md" |} (openView [eventOf "events/a.md" standup])).
  - vm_compute. lia.
  - vm_compute. eauto.
Defined.

Lemma onDelete_undoes_onCacheUpdate_witness :
  onDelete (IsFile {| path := "events/a.md" |})
    (onCacheUpdate sampleDecoder sampleAccepts (sampleApp {[ "events/a.md" := standup ]})
       {| path := "events/a.md" |} (openView [eventOf "events/b.md" standup]))
  = openView [eventOf "events/b.md" standup].
Proof.
  apply (onDelete_undoes_onCacheUpdate sampleDecoder sampleAccepts sampleDecoder_ownPath
           (sampleApp {[ "events/a.md" := standup ]}) {| path := "events/a.md" |}
           (openView [eventOf "events/b.md" standup])).
  vm_compute. reflexivity.
Defined.

Lemma onCacheUpdate_new_file_witness :
  ∃ added,
    calendar (onCacheUpdate sampleDecoder sampleAccepts (sampleApp {[ "events/a.md" := standup ]})
                {| path := "events/a.md" |} (openView [eventOf "events/b.md" standup]))
    = Some ([eventOf "events/b.md" standup] ++ [added])
    ∧ eventOf "events/a.md" standup ⊆ added
    ∧ added !! "textColor"
      = Some (default (JStr "#ffffff") (eventOf "events/a.md" standup !! "textColor")).
Proof.
  apply (onCacheUpdate_new_file sampleDecoder sampleAccepts
           (sampleApp {[ "events/a.md" := standup ]}) {| path := "events/a.md" |}
           (openView [eventOf "events/b.md" standup])
           (eventOf "events/a.md" standup) "events" None
           [eventOf "events/b.md" standup]).
  - vm_compute. reflexivity.
  - apply list_elem_of_here.
  - vm_compute. reflexivity.
  - intros source _. rewrite sampleAccepts_newEvent. vm_compute. reflexivity.
  - reflexivity.
  - vm_compute. reflexivity.
Defined.

(** events/work/a.md falls under both local sources; the first decides. *)
Lemma onCacheUpdate_first_source_wins_witness :
  calendar
    (onCacheUpdate sampleDecoder sampleAccepts (sampleApp {[ "events/work/a.md" := standup ]})
       {| path := "events/work/a.md" |} (withSources nestedSources (openView [])))
  = calendar
      (onCacheUpdate sampleDecoder sampleAccepts (sampleApp {[ "events/work/a.md" := standup ]})
         {| path := "events/work/a.md" |}
         (withSources [LocalCalendarSource "events" (Some "red")] (openView []))).
Proof.
  apply (onCacheUpdate_first_source_wins sampleDecoder sampleAccepts
           (sampleApp {[ "events/work/a.md" := standup ]})
           {| path := "events/work/a.md" |} (openView [])
           [GoogleCalendarSource "team@example.org" None]
           (LocalCalendarSource "events" (Some "red"))
           [LocalCalendarSource "events/work" (Some "blue")]).
  - apply Forall_cons_2; [reflexivity|apply Forall_nil_2].
  - vm_compute. reflexivity.
Defined.

Lemma onCacheUpdate_no_source_witness :
  onCacheUpdate sampleDecoder sampleAccepts (sampleApp {[ "archive/a.md" := standup ]})
    {| path := "archive/a.md" |} (openView [eventOf "events/a.md" standup])
  = openView [eventOf "events/a.md" standup].
Proof.
  apply (onCacheUpdate_no_source sampleDecoder sampleAccepts
           (sampleApp {[ "archive/a.md" := standup ]}) {| path := "archive/a.md" |}
           (openView [eventOf "events/a.md" standup])).
  intros directory color Hin. simpl in Hin.
  apply list_elem_of_singleton in Hin. injection Hin as -> ->.
  vm_compute. reflexivity.
Defined.

(** The directory of the first local source is gone; the second loads. *)
Lemma onOpen_skips_unbuilt_source_witness :
  calendar
    (onOpen sampleSource sampleRender
       (settingsOf ([] ++ LocalCalendarSource "missing" None
                       :: [LocalCalendarSource "events" None]) false)
       ["events"] (sampleApp {[ "events/a.md" := standup ]}) closedView)
  = calendar
      (onOpen sampleSource sampleRender
         (settingsOf ([] ++ [LocalCalendarSource "events" None]) false)
         ["events"] (sampleApp {[ "events/a.md" := standup ]}) closedView)
  ∧ textContent
      (onOpen sampleSource sampleRender
         (settingsOf ([] ++ LocalCalendarSource "missing" None
                         :: [LocalCalendarSource "events" None]) false)
         ["events"] (sampleApp {[ "events/a.md" := standup ]}) closedView) = "".
Proof.
  apply (onOpen_skips_unbuilt_source sampleSource sampleRender
           [] "missing" None [LocalCalendarSource "events" None] false
           ["events"] (sampleApp {[ "events/a.md" := standup ]}) closedView).
  vm_compute. reflexivity.
Defined.

Lemma rename_there_and_back_witness :
  shown "events/b.md"
    (onRename sampleDecoder sampleAccepts (sampleApp {[ "events/b.md" := standup ]})
       (IsFile {| path := "events/b.md" |}) "events/a.md"
       (openView [eventOf "events/a.md" standup])) = 1
  ∧ shown "events/a.md"
      (onRename sampleDecoder sampleAccepts (sampleApp {[ "events/a.md" := standup ]})
         (IsFile {| path := "events/a.md" |}) "events/b.md"
         (onRename sampleDecoder sampleAccepts (sampleApp {[ "events/b.md" := standup ]})
            (IsFile {| path := "events/b.md" |}) "events/a.md"
            (openView [eventOf "events/a.md" standup]))) = 1
  ∧ shown "events/b.md"
      (onRename sampleDecoder sampleAccepts (sampleApp {[ "events/a.md" := standup ]})
         (IsFile {| path := "events/a.md" |}) "events/b.md"
         (onRename sampleDecoder sampleAccepts (sampleApp {[ "events/b.md" := standup ]})
            (IsFile {| path := "events/b.md" |}) "events/a.md"
            (openView [eventOf "events/a.md" standup]))) = 0.
Proof.
  apply (rename_there_and_back sampleDecoder sampleAccepts sampleDecoder_ownPath
           (sampleApp {[ "events/b.md" := standup ]})
           (sampleApp {[ "events/a.md" := standup ]})
           {| path := "events/a.md" |} {| path := "events/b.md" |}
           (openView [eventOf "events/a.md" standup])
           (eventOf "events/a.md" standup) (eventOf "events/b.md" standup)
           "events" None "events" None).
  - simpl. discriminate.
  - vm_compute. reflexivity.
  - vm_compute. reflexivity.
  - vm_compute. reflexivity.
  - vm_compute. reflexivity.
  - apply list_elem_of_here.
  - vm_compute. reflexivity.
  - apply list_elem_of_here.
  - vm_compute. reflexivity.
  - intros source _. rewrite sampleAccepts_newEvent. vm_compute. reflexivity.
  - intros source _. rewrite sampleAccepts_newEvent. vm_compute. reflexivity.
Defined.

(** The front matter of events/a.md is edited, with dates the widget
    accepts, and then removed: its event stays. *)
Lemma metadata_changes_never_hide_witness :
  shown "events/a.md" (openView [eventOf "events/a.md" standup])
  ≤ shown "events/a.md"
      (run sampleDecoder sampleAccepts editsTrace (openView [eventOf "events/a.md" standup])).
Proof.
  apply (metadata_changes_never_hide sampleDecoder sampleAccepts sampleDecoder_ownPath
           "events/a.md" editsTrace (openView [eventOf "events/a.md" standup])).
  unfold editsTrace. repeat apply Forall_cons_2; [..|apply Forall_nil_2];
    simpl; eexists; (split; [reflexivity|]); intros source data Hdata;
    rewrite sampleAccepts_newEvent;
    vm_compute in Hdata; [injection Hdata as <-..|discriminate];
    vm_compute; reflexivity.
Defined.
